(** * train-with-pytorch.ipynb: the notebook as a program over an SDK platform

    The notebook is a linear sequence of code cells.  Every cell evaluates
    names in the kernel's global namespace, builds argument values and calls
    into the Azure ML / torch / onnx SDKs.  The model below keeps exactly
    that: a namespace, a local file system, and the log of calls issued with
    their outcomes.  What an SDK call answers is not decided here: it is
    given by a platform function that sees the whole call history. *)

From Stdlib Require Import QArith Ascii String.
From stdpp Require Import gmap strings list.

Local Open Scope Z_scope.

(** ** Python values the notebook manipulates *)

#[warnings="-register-all"]
Inductive value :=
| VNone
| VBool (b : bool)
| VInt (z : Z)
| VFloat (q : Q)                        (* a decimal literal, kept exact *)
| VStr (s : string)
| VList (l : list value)
| VDict (l : list (string * value))     (* a dict display, in source order *)
| VModule (path : string)               (* what [import path] binds *)
| VBuiltin (x : string)                 (* a name found in builtins *)
| VAttr (v : value) (a : string)        (* [v.a] *)
| VAdd (a b : value)                    (* [a + b] on operands not known to be literals *)
| VObj (id : nat).                      (* an opaque object handed back by a call *)

Record exn := Exn { exn_class : string; exn_arg : string }.

Definition NameError (x : string) : exn := Exn "NameError" x.
Definition TypeError (x : string) : exn := Exn "TypeError" x.
Definition IndexError (x : string) : exn := Exn "IndexError" x.
Definition FileExistsError (p : string) : exn := Exn "FileExistsError" p.
Definition FileNotFoundError (p : string) : exn := Exn "FileNotFoundError" p.
Definition IsADirectoryError (p : string) : exn := Exn "IsADirectoryError" p.
Definition NotADirectoryError (p : string) : exn := Exn "NotADirectoryError" p.
Definition SameFileError (p : string) : exn := Exn "SameFileError" p.
Definition PermissionError (p : string) : exn := Exn "PermissionError" p.

(** A call: the callee value, positional arguments, keyword arguments. *)
Record call := Call { fn : value; args : list value; kwargs : list (string * value) }.

Inductive outcome := Returns (v : value) | Raises (e : exn).

Definition event : Type := call * outcome.

(** ** Local file system, as far as [os.makedirs] and [shutil.copy] see it.
    Paths are compared as written (two spellings of one file are two
    entries); the current directory always exists. *)

Inductive node := Dir | File (content : string) (mode : Z).

Abbreviation fsys := (gmap string node).

Definition sep : ascii := "/"%char.

Fixpoint has_sep (p : string) : bool :=
  match p with
  | EmptyString => false
  | String a p' => Ascii.eqb a sep || has_sep p'
  end.

Fixpoint all_sep (p : string) : bool :=
  match p with
  | EmptyString => true
  | String a p' => Ascii.eqb a sep && all_sep p'
  end.

(** [(p[:i], p[i:])] with [i = p.rfind('/') + 1]. *)
Fixpoint cut_last_sep (p : string) : string * string :=
  match p with
  | EmptyString => (EmptyString, EmptyString)
  | String a p' =>
      let '(h, t) := cut_last_sep p' in
      if has_sep p' then (String a h, t)
      else if Ascii.eqb a sep then (String a EmptyString, p')
      else (EmptyString, String a p')
  end.

Fixpoint rstrip_sep (s : string) : string :=
  match s with
  | EmptyString => EmptyString
  | String a s' =>
      let r := rstrip_sep s' in
      match r with
      | EmptyString => if Ascii.eqb a sep then EmptyString else String a EmptyString
      | _ => String a r
      end
  end.

(** posixpath.split *)
Definition path_split (p : string) : string * string :=
  let '(head, tail) := cut_last_sep p in
  if negb (String.eqb head "") && negb (all_sep head)
  then (rstrip_sep head, tail) else (head, tail).

Definition basename (p : string) : string := snd (cut_last_sep p).

Fixpoint ends_with_sep (p : string) : bool :=
  match p with
  | EmptyString => false
  | String a EmptyString => Ascii.eqb a sep
  | String _ p' => ends_with_sep p'
  end.

(** posixpath.join on two components *)
Definition path_join (a b : string) : string :=
  match b with
  | String c _ =>
      if Ascii.eqb c sep then b
      else if String.eqb a "" || ends_with_sep a then a +:+ b
      else a +:+ "/" +:+ b
  | EmptyString =>
      if String.eqb a "" || ends_with_sep a then a else a +:+ "/"
  end.

(** A path without its trailing separators; a path made of separators only
    (the root) is kept. *)
Definition strip_trailing (p : string) : string :=
  if all_sep p then p else rstrip_sep p.

Definition path_exists (f : fsys) (p : string) : bool :=
  let q := strip_trailing p in
  String.eqb q "." || all_sep q && negb (String.eqb q "") ||
  match f !! q with Some _ => true | None => false end.

Definition path_isdir (f : fsys) (p : string) : bool :=
  let q := strip_trailing p in
  String.eqb q "." || all_sep q && negb (String.eqb q "") ||
  match f !! q with Some Dir => true | _ => false end.

(** os.mkdir: the empty path names nothing; trailing separators do not
    count, neither for the path nor for its parent. *)
Definition mkdir (name : string) (f : fsys) : option exn * fsys :=
  let q := strip_trailing name in
  if String.eqb name "" then (Some (FileNotFoundError name), f)
  else if path_exists f q then (Some (FileExistsError name), f)
  else
    let parent := fst (path_split q) in
    if String.eqb parent "" || path_isdir f parent then (None, <[q := Dir]> f)
    else if path_exists f parent then (Some (NotADirectoryError name), f)
    else (Some (FileNotFoundError name), f).

(** os.makedirs(name, exist_ok): missing ancestors first, then the leaf; an
    error of the leaf [mkdir] is swallowed only when [exist_ok] holds and the
    path is a directory.  The recursion is on the ancestor chain, bounded by
    the length of the path. *)
Fixpoint makedirs_rec (fuel : nat) (name : string) (exist_ok : bool) (f : fsys)
  : option exn * fsys :=
  let leaf (f : fsys) :=
    match mkdir name f with
    | (Some e, f') =>
        if negb exist_ok || negb (path_isdir f' name) then (Some e, f') else (None, f')
    | ok => ok
    end in
  let '(head0, tail0) := path_split name in
  let '(head, tail) := if String.eqb tail0 "" then path_split head0 else (head0, tail0) in
  if negb (String.eqb head "") && negb (String.eqb tail "") && negb (path_exists f head)
  then
    match fuel with
    | O => (Some (Exn "RecursionError" name), f)
    | S fuel' =>
        match makedirs_rec fuel' head exist_ok f with
        | (Some e, f') =>
            if String.eqb (exn_class e) "FileExistsError"
            then (if String.eqb tail "." then (None, f') else leaf f')
            else (Some e, f')
        | (None, f') => if String.eqb tail "." then (None, f') else leaf f'
        end
    end
  else leaf f.

Definition makedirs (name : string) (exist_ok : bool) (f : fsys) : option exn * fsys :=
  makedirs_rec (String.length name) name exist_ok f.

(** Permission bits of a file as they bind its owner: 0o400 and 0o200.  The
    notebook is taken to run as the owner of the files, without superuser
    rights; directories are taken to be writable and searchable. *)
Definition owner_readable (mode : Z) : bool := Z.testbit mode 8.
Definition owner_writable (mode : Z) : bool := Z.testbit mode 7.

(** shutil.copy(src, dst): into the directory when [dst] is one.  copyfile
    opens [src] for reading, then the destination for writing (an existing
    file must be writable, a new one needs its parent directory), and copies
    the content; copymode then gives the destination the permission bits of
    [src].  Returns the destination path. *)
Definition shutil_copy (src dst : string) (f : fsys) : (exn + string) * fsys :=
  let dst' := if path_isdir f dst then path_join dst (basename src) else dst in
  if String.eqb src dst' then (inl (SameFileError src), f)
  else
    match f !! src with
    | None => (inl (FileNotFoundError src), f)
    | Some Dir => (inl (IsADirectoryError src), f)
    | Some (File content mode) =>
        if negb (owner_readable mode) then (inl (PermissionError src), f)
        else if path_isdir f dst' then (inl (IsADirectoryError dst'), f)
        else
          match f !! dst' with
          | Some (File _ dmode) =>
              if owner_writable dmode
              then (inr dst', <[dst' := File content mode]> f)
              else (inl (PermissionError dst'), f)
          | _ =>
              let parent := fst (path_split dst') in
              if String.eqb parent "" || path_isdir f parent
              then (inr dst', <[dst' := File content mode]> f)
              else (inl (FileNotFoundError dst'), f)
          end
    end.

Arguments makedirs : simpl never.
Arguments shutil_copy : simpl never.

(** ** Kernel state and the monad of cell code *)

Record state := State {
  ns : list (string * value);   (* global namespace of the kernel *)
  fs : fsys;                    (* local files *)
  trace : list event            (* every call issued so far, oldest first *)
}.

Inductive result (A : Type) := OK (a : A) | Raise (e : exn).
Arguments OK {A} a.
Arguments Raise {A} e.

Definition M (A : Type) : Type := state -> result A * state.

Definition ret {A} (a : A) : M A := fun st => (OK a, st).

Definition bind {A B} (m : M A) (k : A -> M B) : M B := fun st =>
  match m st with
  | (OK a, st') => k a st'
  | (Raise e, st') => (Raise e, st')
  end.

Definition raise {A} (e : exn) : M A := fun st => (Raise e, st).

Declare Scope py_scope.
Delimit Scope py_scope with py.
Notation "x <- c1 ;; c2" := (bind c1 (fun x => c2))
  (at level 100, c1 at next level, right associativity) : py_scope.
Notation "c1 ;; c2" := (bind c1 (fun _ => c2))
  (at level 100, right associativity) : py_scope.
Local Open Scope py_scope.

(** [try: body except cls: handler] *)
Definition try_except {A} (body : M A) (cls : string) (handler : M A) : M A := fun st =>
  match body st with
  | (Raise e, st') => if String.eqb (exn_class e) cls then handler st' else (Raise e, st')
  | ok => ok
  end.

Fixpoint assoc {A} (x : string) (l : list (string * A)) : option A :=
  match l with
  | [] => None
  | (y, v) :: l' => if String.eqb x y then Some v else assoc x l'
  end.

(** Names of the builtins module (functions only; the notebook uses [print]). *)
Definition builtins : list string :=
  ["abs"; "all"; "any"; "ascii"; "bin"; "bool"; "bytearray"; "bytes"; "callable";
   "chr"; "classmethod"; "compile"; "complex"; "delattr"; "dict"; "dir"; "divmod";
   "enumerate"; "eval"; "exec"; "filter"; "float"; "format"; "frozenset"; "getattr";
   "globals"; "hasattr"; "hash"; "help"; "hex"; "id"; "input"; "int"; "isinstance";
   "issubclass"; "iter"; "len"; "list"; "locals"; "map"; "max"; "memoryview"; "min";
   "next"; "object"; "oct"; "open"; "ord"; "pow"; "print"; "property"; "range";
   "repr"; "reversed"; "round"; "set"; "setattr"; "slice"; "sorted"; "staticmethod";
   "str"; "sum"; "super"; "tuple"; "type"; "vars"; "zip"].

(** Evaluating a name: globals, then builtins, else NameError. *)
Definition name (x : string) : M value := fun st =>
  match assoc x (ns st) with
  | Some v => (OK v, st)
  | None =>
      if existsb (String.eqb x) builtins then (OK (VBuiltin x), st)
      else (Raise (NameError x), st)
  end.

(** [x = v] *)
Definition assign (x : string) (v : value) : M unit := fun st =>
  (OK tt, State ((x, v) :: ns st) (fs st) (trace st)).

Fixpoint top_package (path : string) : string :=
  match path with
  | EmptyString => EmptyString
  | String a p' => if Ascii.eqb a "."%char then EmptyString else String a (top_package p')
  end.

(** [import a.b.c] binds the top package [a]. *)
Definition import_ (path : string) : M unit :=
  assign (top_package path) (VModule (top_package path)).

(** [import path as x] *)
Definition import_as (path x : string) : M unit := assign x (VModule path).

(** [from path import n1, n2, ...] *)
Fixpoint from_import (path : string) (names : list string) : M unit :=
  match names with
  | [] => ret tt
  | n :: names' => assign n (VAttr (VModule path) n) ;; from_import path names'
  end.

(** [a + b] *)
Definition py_add (a b : value) : value :=
  match a, b with
  | VStr x, VStr y => VStr (x +:+ y)
  | VInt x, VInt y => VInt (x + y)
  | _, _ => VAdd a b
  end.

(** [v[i]] on a list; other values are not subscripted by the notebook. *)
Definition subscript (v : value) (i : nat) : M value :=
  match v with
  | VList l =>
      match nth_error l i with
      | Some x => ret x
      | None => raise (IndexError "list index out of range")
      end
  | _ => raise (TypeError "object is not subscriptable")
  end.

(** ** Calls *)

Definition arg_str (v : option value) : option string :=
  match v with Some (VStr s) => Some s | _ => None end.

Definition arg_bool (v : option value) (default : bool) : option bool :=
  match v with Some (VBool b) => Some b | None => Some default | _ => None end.

Definition is_module (v : value) (m : string) : bool :=
  match v with VModule p => String.eqb p m | _ => false end.

(** The three callees that run locally: [print], [os.makedirs], [shutil.copy]. *)
Definition local_call (c : call) (f : fsys) : option (outcome * fsys) :=
  match fn c with
  | VBuiltin b =>
      if String.eqb b "print" then Some (Returns VNone, f) else None
  | VAttr v a =>
      if String.eqb a "makedirs" && is_module v "os" then
        match arg_str (nth_error (args c) 0), arg_bool (assoc "exist_ok" (kwargs c)) false with
        | Some p, Some ok =>
            match makedirs p ok f with
            | (None, f') => Some (Returns VNone, f')
            | (Some e, f') => Some (Raises e, f')
            end
        | _, _ => Some (Raises (TypeError "makedirs"), f)
        end
      else if String.eqb a "copy" && is_module v "shutil" then
        match arg_str (nth_error (args c) 0), arg_str (nth_error (args c) 1) with
        | Some src, Some dst =>
            match shutil_copy src dst f with
            | (inr d, f') => Some (Returns (VStr d), f')
            | (inl e, f') => Some (Raises e, f')
            end
        | _, _ => Some (Raises (TypeError "copy"), f)
        end
      else None
  | _ => None
  end.

(** The platform answers every other call, from the history of calls, the
    local files and the call itself; it may also write local files. *)
Definition platform_t : Type := list event -> fsys -> call -> outcome * fsys.

Section Notebook.

Variable platform : platform_t.

Definition respond (c : call) (st : state) : outcome * fsys :=
  match local_call c (fs st) with
  | Some r => r
  | None => platform (trace st) (fs st) c
  end.

(** Issue a call: log it with its outcome, return or raise. *)
Definition invoke (c : call) : M value := fun st =>
  let '(o, f') := respond c st in
  let st' := State (ns st) f' (trace st ++ [(c, o)]) in
  match o with
  | Returns v => (OK v, st')
  | Raises e => (Raise e, st')
  end.

Definition call_ (f : value) (a : list value) (kw : list (string * value)) : M value :=
  invoke (Call f a kw).

(** ** The code cells, in notebook order *)

Definition newline : string := String (ascii_of_nat 10) EmptyString.
Definition tab : string := String (ascii_of_nat 9) EmptyString.

(** Imports and SDK version banner. *)
Definition import_sdk : M unit :=
  import_ "azureml.core" ;;
  from_import "azureml.core" ["Workspace"; "Experiment"] ;;
  from_import "azureml.core.datastore" ["Datastore"] ;;
  from_import "azureml.core.compute" ["ComputeTarget"; "AmlCompute"] ;;
  from_import "azureml.exceptions" ["ComputeTargetException"] ;;
  from_import "azureml.data.data_reference" ["DataReference"] ;;
  from_import "azureml.pipeline.steps" ["HyperDriveStep"; "HyperDriveStepRun"] ;;
  from_import "azureml.pipeline.core" ["Pipeline"; "PipelineData"] ;;
  from_import "azureml.train.hyperdrive"
    ["RandomParameterSampling"; "BanditPolicy"; "HyperDriveConfig"; "PrimaryMetricGoal"] ;;
  from_import "azureml.train.hyperdrive" ["choice"; "loguniform"] ;;
  from_import "azureml.pipeline.core" ["PipelineParameter"] ;;
  from_import "azureml.pipeline.steps" ["PythonScriptStep"] ;;
  from_import "azureml.pipeline.core" ["Pipeline"; "PipelineRun"] ;;
  import_ "os" ;;
  import_ "shutil" ;;
  import_ "urllib" ;;
  import_as "numpy" "np" ;;
  import_as "matplotlib.pyplot" "plt" ;;
  pr <- name "print" ;;
  az <- name "azureml" ;;
  call_ pr [VStr "SDK version:"; VAttr (VAttr az "core") "VERSION"] [] ;;
  ret tt.

(** ws = Workspace.from_config(); print(...) *)
Definition initialize_workspace : M unit :=
  from_import "azureml.core.workspace" ["Workspace"] ;;
  W <- name "Workspace" ;;
  w <- call_ (VAttr W "from_config") [] [] ;;
  assign "ws" w ;;
  pr <- name "print" ;;
  w1 <- name "ws" ;;
  w2 <- name "ws" ;;
  w3 <- name "ws" ;;
  w4 <- name "ws" ;;
  call_ pr [py_add (VStr "Workspace name: ") (VAttr w1 "name");
            py_add (VStr "Azure region: ") (VAttr w2 "location");
            py_add (VStr "Subscription id: ") (VAttr w3 "subscription_id");
            py_add (VStr "Resource group: ") (VAttr w4 "resource_group")]
           [("sep", VStr newline)] ;;
  ret tt.

(** data_dir = ws.get_default_datastore(); the upload line is a comment. *)
Definition get_datastore : M unit :=
  w <- name "ws" ;;
  d <- call_ (VAttr w "get_default_datastore") [] [] ;;
  assign "data_dir" d.

(** try: ComputeTarget(workspace=ws, name=cluster_name)
    except ComputeTargetException: provision, create, wait. *)
Definition create_or_attach_compute : M unit :=
  from_import "azureml.core.compute" ["ComputeTarget"; "AmlCompute"] ;;
  from_import "azureml.core.compute_target" ["ComputeTargetException"] ;;
  assign "cluster_name" (VStr "cpu-cluster") ;;
  try_except
    (CT <- name "ComputeTarget" ;;
     w <- name "ws" ;;
     cn <- name "cluster_name" ;;
     t <- call_ CT [] [("workspace", w); ("name", cn)] ;;
     assign "compute_target" t ;;
     pr <- name "print" ;;
     call_ pr [VStr "Found existing compute target."] [] ;;
     ret tt)
    "ComputeTargetException"
    (pr <- name "print" ;;
     call_ pr [VStr "Creating a new compute target..."] [] ;;
     Aml <- name "AmlCompute" ;;
     cfg <- call_ (VAttr Aml "provisioning_configuration") []
              [("vm_size", VStr "STANDARD_D3_V2"); ("max_nodes", VInt 4)] ;;
     assign "compute_config" cfg ;;
     CT <- name "ComputeTarget" ;;
     w <- name "ws" ;;
     cn <- name "cluster_name" ;;
     cc <- name "compute_config" ;;
     t <- call_ (VAttr CT "create") [w; cn; cc] [] ;;
     assign "compute_target" t ;;
     t' <- name "compute_target" ;;
     call_ (VAttr t' "wait_for_completion") [] [("show_output", VBool true)] ;;
     ret tt).

(** script_folder = './pytorch-birds'; os.makedirs(script_folder, exist_ok=True) *)
Definition create_project_directory : M unit :=
  import_ "os" ;;
  assign "script_folder" (VStr "./pytorch-birds") ;;
  o <- name "os" ;;
  sf <- name "script_folder" ;;
  call_ (VAttr o "makedirs") [sf] [("exist_ok", VBool true)] ;;
  ret tt.

(** shutil.copy('pytorch_train.py', script_folder) *)
Definition copy_training_script : M unit :=
  sh <- name "shutil" ;;
  sf <- name "script_folder" ;;
  call_ (VAttr sh "copy") [VStr "pytorch_train.py"; sf] [] ;;
  ret tt.

(** est = PyTorch(...) *)
Definition create_estimator : M unit :=
  from_import "azureml.train.dnn" ["PyTorch"] ;;
  P <- name "PyTorch" ;;
  sf <- name "script_folder" ;;
  ct <- name "compute_target" ;;
  e <- call_ P []
         [("source_directory", sf); ("compute_target", ct);
          ("entry_script", VStr "pytorch_train.py");
          ("pip_packages", VList [VStr "pillow==5.4.1"])] ;;
  assign "est" e.

(** output = PipelineData(...); input_data = DataReference(...) *)
Definition define_input_output : M unit :=
  from_import "azureml.pipeline.core" ["PipelineData"] ;;
  PD <- name "PipelineData" ;;
  d <- name "data_dir" ;;
  o <- call_ PD [VStr "output"] [("datastore", d)] ;;
  assign "output" o ;;
  DR <- name "DataReference" ;;
  d' <- name "data_dir" ;;
  i <- call_ DR []
         [("datastore", d'); ("data_reference_name", VStr "input_data");
          ("path_on_datastore", VStr "fowl_data")] ;;
  assign "input_data" i.

(** param_sampling, early_termination_policy, hd_config *)
Definition hyperdrive_config : M unit :=
  from_import "azureml.train.hyperdrive"
    ["RandomParameterSampling"; "BanditPolicy"; "HyperDriveConfig"; "uniform";
     "PrimaryMetricGoal"] ;;
  RPS <- name "RandomParameterSampling" ;;
  u1 <- name "uniform" ;;
  lr <- call_ u1 [VFloat (5 # 10000); VFloat (5 # 1000)] [] ;;
  u2 <- name "uniform" ;;
  mo <- call_ u2 [VFloat (9 # 10); VFloat (99 # 100)] [] ;;
  ps <- call_ RPS [VDict [("learning_rate", lr); ("momentum", mo)]] [] ;;
  assign "param_sampling" ps ;;
  BP <- name "BanditPolicy" ;;
  pol <- call_ BP []
           [("slack_factor", VFloat (15 # 100)); ("evaluation_interval", VInt 1);
            ("delay_evaluation", VInt 10)] ;;
  assign "early_termination_policy" pol ;;
  HDC <- name "HyperDriveConfig" ;;
  e <- name "est" ;;
  ps' <- name "param_sampling" ;;
  pol' <- name "early_termination_policy" ;;
  G <- name "PrimaryMetricGoal" ;;
  hd <- call_ HDC []
          [("estimator", e); ("hyperparameter_sampling", ps'); ("policy", pol');
           ("primary_metric_name", VStr "best_val_acc");
           ("primary_metric_goal", VAttr G "MAXIMIZE");
           ("max_total_runs", VInt 8); ("max_concurrent_runs", VInt 4)] ;;
  assign "hd_config" hd.

(** metrics_data = PipelineData(...); hd_step = HyperDriveStep(...) *)
Definition hyperdrive_step : M unit :=
  assign "metrics_output_name" (VStr "metrics_output") ;;
  PD <- name "PipelineData" ;;
  d <- name "data_dir" ;;
  mon <- name "metrics_output_name" ;;
  md <- call_ PD [] [("name", VStr "metrics_data"); ("datastore", d);
                     ("pipeline_output_name", mon)] ;;
  assign "metrics_data" md ;;
  assign "hd_step_name" (VStr "Hyperdrive_step") ;;
  HS <- name "HyperDriveStep" ;;
  n <- name "hd_step_name" ;;
  hc <- name "hd_config" ;;
  i1 <- name "input_data" ;;
  i2 <- name "input_data" ;;
  md' <- name "metrics_data" ;;
  s <- call_ HS []
         [("name", n); ("hyperdrive_config", hc);
          ("estimator_entry_script_arguments",
             VList [VStr "--data_dir"; i1; VStr "--num_epochs"; VInt 5]);
          ("inputs", VList [i2]); ("metrics_output", md')] ;;
  assign "hd_step" s.

(** exp = Experiment(...); pipeline1 = Pipeline(...); pipeline_run = exp.submit(pipeline) *)
Definition run_pipeline : M unit :=
  E <- name "Experiment" ;;
  w <- name "ws" ;;
  e <- call_ E [] [("workspace", w); ("name", VStr "Hyperdrive_sample")] ;;
  assign "exp" e ;;
  P <- name "Pipeline" ;;
  w' <- name "ws" ;;
  s <- name "hd_step" ;;
  p <- call_ P [] [("workspace", w'); ("steps", VList [s])] ;;
  assign "pipeline1" p ;;
  e' <- name "exp" ;;
  p' <- name "pipeline" ;;
  r <- call_ (VAttr e' "submit") [p'] [] ;;
  assign "pipeline_run" r.

(** hd_step_run = HyperDriveStepRun(step_run=pipeline_run.find_step_run(hd_step_name)[0])
    best_run = hd_step_run.get_best_run_by_primary_metric(); best_run *)
Definition find_best_model : M unit :=
  HSR <- name "HyperDriveStepRun" ;;
  pr <- name "pipeline_run" ;;
  n <- name "hd_step_name" ;;
  found <- call_ (VAttr pr "find_step_run") [n] [] ;;
  sr <- subscript found 0 ;;
  h <- call_ HSR [] [("step_run", sr)] ;;
  assign "hd_step_run" h ;;
  h' <- name "hd_step_run" ;;
  b <- call_ (VAttr h' "get_best_run_by_primary_metric") [] [] ;;
  assign "best_run" b ;;
  name "best_run" ;;
  ret tt.

(** best_run.download_file(...); best_run_model = torch.load('model.pt') *)
Definition download_model : M unit :=
  import_ "torch" ;;
  b <- name "best_run" ;;
  call_ (VAttr b "download_file") [VStr "outputs/model.pt"]
        [("output_file_path", VStr "model.pt")] ;;
  t <- name "torch" ;;
  m <- call_ (VAttr t "load") [VStr "model.pt"] [] ;;
  assign "best_run_model" m.

(** dummy_input = torch.randn(1, 3, 224, 224); torch.onnx.export(...) *)
Definition export_onnx : M unit :=
  import_ "torch.onnx" ;;
  t <- name "torch" ;;
  d <- call_ (VAttr t "randn") [VInt 1; VInt 3; VInt 224; VInt 224] [] ;;
  assign "dummy_input" d ;;
  t' <- name "torch" ;;
  m <- name "best_run_model" ;;
  d' <- name "dummy_input" ;;
  call_ (VAttr (VAttr t' "onnx") "export") [m; d'; VStr "model.onnx"] [] ;;
  ret tt.

(** onnx_model = onnx.load('model.onnx'); onnx.checker.check_model(onnx_model) *)
Definition check_onnx : M unit :=
  import_ "onnx" ;;
  o <- name "onnx" ;;
  m <- call_ (VAttr o "load") [VStr "model.onnx"] [] ;;
  assign "onnx_model" m ;;
  o' <- name "onnx" ;;
  m' <- name "onnx_model" ;;
  call_ (VAttr (VAttr o' "checker") "check_model") [m'] [] ;;
  ret tt.

(** model = Model.register(...); print(model.name, model.id, model.version, sep='\t') *)
Definition register_model : M unit :=
  from_import "azureml.core.model" ["Model"] ;;
  Mo <- name "Model" ;;
  w <- name "ws" ;;
  m <- call_ (VAttr Mo "register") []
         [("workspace", w); ("model_path", VStr "model.onnx");
          ("model_name", VStr "onnx-birds")] ;;
  assign "model" m ;;
  pr <- name "print" ;;
  m1 <- name "model" ;;
  m2 <- name "model" ;;
  m3 <- name "model" ;;
  call_ pr [VAttr m1 "name"; VAttr m2 "id"; VAttr m3 "version"] [("sep", VStr tab)] ;;
  ret tt.

Fixpoint run_cells (cs : list (M unit)) : M unit :=
  match cs with
  | [] => ret tt
  | c :: cs' => c ;; run_cells cs'
  end.

Definition cells : list (M unit) :=
  [import_sdk; initialize_workspace; get_datastore; create_or_attach_compute;
   create_project_directory; copy_training_script; create_estimator;
   define_input_output; hyperdrive_config; hyperdrive_step; run_pipeline;
   find_best_model; download_model; export_onnx; check_onnx; register_model].

(** Running the notebook top to bottom. *)
Definition notebook : M unit := run_cells cells.

(** The staging step: project directory, then the script copy. *)
Definition stage_training_script : M unit :=
  create_project_directory ;; copy_training_script.

(** The cells after the sweep: download, export, check, register. *)
Definition convert_and_register : M unit :=
  download_model ;; export_onnx ;; check_onnx ;; register_model.

(** Submission and best-run selection, as the notebook orders them. *)
Definition submit_and_select : M unit :=
  run_pipeline ;; find_best_model.

End Notebook.

Arguments respond : simpl never.

(** A platform on which every call succeeds and hands back a fresh opaque
    object, numbered by the position of the call in the history;
    [find_step_run] hands back a one-element list, [randn] the given draw. *)
Definition sdk_ok (draw : value) : platform_t := fun tr f c =>
  let fresh := VObj (length tr) in
  (Returns
     match fn c with
     | VAttr _ a =>
         if String.eqb a "find_step_run" then VList [fresh]
         else if String.eqb a "randn" then draw
         else fresh
     | _ => fresh
     end, f).

(** The same platform with no cluster yet: the first lookup by constructor
    [ComputeTarget(...)] raises ComputeTargetException. *)
Definition sdk_no_cluster (draw : value) : platform_t := fun tr f c =>
  match fn c with
  | VAttr (VModule _) a =>
      if String.eqb a "ComputeTarget"
      then (Raises (Exn "ComputeTargetException" "ComputeTargetNotFound"), f)
      else sdk_ok draw tr f c
  | _ => sdk_ok draw tr f c
  end.

(** A fresh kernel in a working directory holding the training script. *)
Definition training_script : node := File "import torch" 420.

Definition fresh_kernel : state :=
  State [] {[ "pytorch_train.py" := training_script ]} [].

(** ** Vocabulary of the statements *)

(** The callee of a call, by its last name: the attribute or the builtin. *)
Definition callee_name (c : call) : string :=
  match fn c with VAttr _ a => a | VBuiltin b => b | _ => "" end.

(** Some event of the log calls [a]. *)
Definition issued (a : string) (evs : list event) : bool :=
  existsb (fun ev => String.eqb (callee_name (fst ev)) a) evs.

(** [print] has not been rebound in the kernel. *)
Definition print_unbound (st : state) : Prop := assoc "print" (ns st) = None.

(** The platform answers every call with a value. *)
Definition never_raises (platform : platform_t) : Prop :=
  forall tr f c, exists v f', platform tr f c = (Returns v, f').

Definition print_call (s : string) : call := Call (VBuiltin "print") [VStr s] [].

(** ComputeTarget(workspace=ws, name="cpu-cluster") *)
Definition lookup_call (w : value) : call :=
  Call (VAttr (VModule "azureml.core.compute") "ComputeTarget") []
       [("workspace", w); ("name", VStr "cpu-cluster")].

(** AmlCompute.provisioning_configuration(vm_size='STANDARD_D3_V2', max_nodes=4) *)
Definition provisioning_call : call :=
  Call (VAttr (VAttr (VModule "azureml.core.compute") "AmlCompute")
              "provisioning_configuration")
       [] [("vm_size", VStr "STANDARD_D3_V2"); ("max_nodes", VInt 4)].

(** ComputeTarget.create(ws, "cpu-cluster", compute_config) *)
Definition create_call (w cfg : value) : call :=
  Call (VAttr (VAttr (VModule "azureml.core.compute") "ComputeTarget") "create")
       [w; VStr "cpu-cluster"; cfg] [].

Definition wait_call (t : value) : call :=
  Call (VAttr t "wait_for_completion") [] [("show_output", VBool true)].

Definition ComputeTargetNotFound (m : string) : exn := Exn "ComputeTargetException" m.

(** What the handler leaves in the log [evs] after the lookup, with the
    result [r] and the kernel [st'] of the cell: the message, the
    provisioning request, then the creation under the same name with that
    configuration, then the wait on the created target, which is the one
    bound to [compute_target]; each call only if the one before returned. *)
Definition handler_ran (w : value) (evs : list event) (r : result unit) (st' : state)
  : Prop :=
  exists o' rest,
    evs = (print_call "Creating a new compute target...", Returns VNone)
            :: (provisioning_call, o') :: rest /\
    match o' with
    | Raises e => rest = [] /\ r = Raise e
    | Returns cfg =>
        exists o'' rest',
          rest = (create_call w cfg, o'') :: rest' /\
          match o'' with
          | Raises e => rest' = [] /\ r = Raise e
          | Returns t =>
              exists o3,
                rest' = [(wait_call t, o3)] /\
                assoc "compute_target" (ns st') = Some t /\
                r = match o3 with Returns _ => OK tt | Raises e => Raise e end
          end
    end.

(** A kernel in which the workspace handle is bound and nothing else. *)
Definition kernel_with_ws : state :=
  State [("ws", VObj 0)] {[ "pytorch_train.py" := training_script ]} [].

(** The sweep payload, call by call. *)
Definition hyperdrive : value := VModule "azureml.train.hyperdrive".

Definition uniform_call (lo hi : Q) : call :=
  Call (VAttr hyperdrive "uniform") [VFloat lo; VFloat hi] [].

Definition sampling_call (lr mo : value) : call :=
  Call (VAttr hyperdrive "RandomParameterSampling")
       [VDict [("learning_rate", lr); ("momentum", mo)]] [].

Definition bandit_call : call :=
  Call (VAttr hyperdrive "BanditPolicy") []
       [("slack_factor", VFloat (15 # 100)); ("evaluation_interval", VInt 1);
        ("delay_evaluation", VInt 10)].

Definition hd_config_call (est ps pol : value) : call :=
  Call (VAttr hyperdrive "HyperDriveConfig") []
       [("estimator", est); ("hyperparameter_sampling", ps); ("policy", pol);
        ("primary_metric_name", VStr "best_val_acc");
        ("primary_metric_goal", VAttr (VAttr hyperdrive "PrimaryMetricGoal") "MAXIMIZE");
        ("max_total_runs", VInt 8); ("max_concurrent_runs", VInt 4)].

(** The calls after the sweep. *)
Definition download_call (b : value) : call :=
  Call (VAttr b "download_file") [VStr "outputs/model.pt"]
       [("output_file_path", VStr "model.pt")].

Definition torch_load_call : call :=
  Call (VAttr (VModule "torch") "load") [VStr "model.pt"] [].

Definition randn_call : call :=
  Call (VAttr (VModule "torch") "randn") [VInt 1; VInt 3; VInt 224; VInt 224] [].

Definition export_call (model dummy : value) : call :=
  Call (VAttr (VAttr (VModule "torch") "onnx") "export") [model; dummy; VStr "model.onnx"] [].

Definition onnx_load_call : call :=
  Call (VAttr (VModule "onnx") "load") [VStr "model.onnx"] [].

Definition check_model_call (m : value) : call :=
  Call (VAttr (VAttr (VModule "onnx") "checker") "check_model") [m] [].

Definition register_call (w : value) : call :=
  Call (VAttr (VAttr (VModule "azureml.core.model") "Model") "register") []
       [("workspace", w); ("model_path", VStr "model.onnx");
        ("model_name", VStr "onnx-birds")].

Definition print_model_call (m : value) : call :=
  Call (VBuiltin "print") [VAttr m "name"; VAttr m "id"; VAttr m "version"]
       [("sep", VStr tab)].

(** A kernel holding what the cells after the sweep read. *)
Definition kernel_after_sweep : state :=
  State [("best_run", VObj 1); ("ws", VObj 0)] ∅ [].

(** A kernel holding an estimator. *)
Definition kernel_with_est : state := State [("est", VObj 0)] ∅ [].

(** A kernel holding a loaded model. *)
Definition kernel_with_model : state := State [("best_run_model", VObj 0)] ∅ [].

(** Another kernel, holding another loaded model. *)
Definition kernel_with_other_model : state := State [("best_run_model", VObj 5)] ∅ [].

(** The tensors a log shows as handed to torch.onnx.export: the second
    positional argument of every export call, oldest first. *)
Definition exported_dummies (evs : list event) : list value :=
  flat_map (fun ev : event =>
              if String.eqb (callee_name ev.1) "export"
              then match args ev.1 with
                   | _ :: d :: _ => [d]
                   | _ => []
                   end
              else []) evs.

(** The runs of a log pass pairwise different tensors to the export. *)
Definition exports_differ (evs : list event) : Prop := NoDup (exported_dummies evs).

(** The calls of submission and best-run selection. *)
Definition Experiment_class : value := VAttr (VModule "azureml.core") "Experiment".
Definition Pipeline_class : value := VAttr (VModule "azureml.pipeline.core") "Pipeline".
Definition HyperDriveStepRun_class : value :=
  VAttr (VModule "azureml.pipeline.steps") "HyperDriveStepRun".

Definition experiment_call (w : value) : call :=
  Call Experiment_class [] [("workspace", w); ("name", VStr "Hyperdrive_sample")].

Definition pipeline_call (w step : value) : call :=
  Call Pipeline_class [] [("workspace", w); ("steps", VList [step])].

Definition submit_call (e p : value) : call := Call (VAttr e "submit") [p] [].

Definition find_step_run_call (r n : value) : call := Call (VAttr r "find_step_run") [n] [].

Definition step_run_call (sr : value) : call :=
  Call HyperDriveStepRun_class [] [("step_run", sr)].

Definition best_run_call (h : value) : call :=
  Call (VAttr h "get_best_run_by_primary_metric") [] [].

(** [find_step_run] answers with a non-empty list. *)
Definition finds_step_runs (platform : platform_t) : Prop :=
  forall tr f r a kw, exists sr l f',
    platform tr f (Call (VAttr r "find_step_run") a kw) = (Returns (VList (sr :: l)), f').

(** Calls that wait for, or poll, a remote run. *)
Definition is_wait_or_poll (c : call) : bool :=
  existsb (String.eqb (callee_name c)) ["wait_for_completion"; "wait"; "get_status"].

(** Some submission in the log is later followed by a wait or a poll. *)
Definition blocks_after_submit (evs : list event) : Prop :=
  exists i j s w,
    evs !! i = Some s /\ callee_name s.1 = "submit" /\ (i < j)%nat /\
    evs !! j = Some w /\ is_wait_or_poll w.1 = true.

(** A kernel in which the sweep step exists and [pipeline] has been bound by
    hand, so that the submission statement can run. *)
Definition sweep_ready_kernel : state :=
  State [("pipeline", VObj 3); ("hd_step_name", VStr "Hyperdrive_step");
         ("hd_step", VObj 2); ("ws", VObj 1);
         ("Experiment", Experiment_class); ("Pipeline", Pipeline_class);
         ("HyperDriveStepRun", HyperDriveStepRun_class)]
        ∅ [].

(** Every callee the notebook reaches before the submission statement. *)
Definition early_callees : list string :=
  ["print"; "from_config"; "get_default_datastore"; "ComputeTarget";
   "provisioning_configuration"; "create"; "wait_for_completion"; "makedirs"; "copy";
   "PyTorch"; "PipelineData"; "DataReference"; "uniform"; "RandomParameterSampling";
   "BanditPolicy"; "HyperDriveConfig"; "HyperDriveStep"; "Experiment"; "Pipeline"].

(** All events of the log call one of [allowed]. *)
Definition only_calls (allowed : list string) (evs : list event) : bool :=
  forallb (fun ev => existsb (String.eqb (callee_name ev.1)) allowed) evs.

(** A kernel just started: empty namespace, empty log, some local files. *)
Definition started (f : fsys) : state := State [] f [].

(** The log shows a data upload. *)
Definition uploads_data (evs : list event) : Prop := issued "upload" evs = true.

(** ws.get_default_datastore() *)
Definition datastore_call (w : value) : call :=
  Call (VAttr w "get_default_datastore") [] [].






(** Running a piece of cell code [n] times in a row. *)
Fixpoint run_times (n : nat) (m : M unit) : M unit :=
  match n with
  | O => ret tt
  | S n' => m ;; run_times n' m
  end.

(** The paths of the staging step and the files it leaves. *)
Definition project_dir : string := "./pytorch-birds".
Definition script_path : string := "pytorch_train.py".
Definition staged_path : string := "./pytorch-birds/pytorch_train.py".


Definition makedirs_call : call :=
  Call (VAttr (VModule "os") "makedirs") [VStr project_dir] [("exist_ok", VBool true)].





(** The answering platform, except that calls to [a] raise a service error. *)
Definition sdk_failing (a : string) : platform_t := fun tr f c =>
  if String.eqb (callee_name c) a
  then (Raises (Exn "ServiceException" a), f)
  else sdk_ok VNone tr f c.

(** ** Vocabulary of the further properties *)


(** The platform answers every call but, possibly, the lookup by constructor. *)
Definition answers_but_lookup (platform : platform_t) : Prop :=
  forall tr f c, callee_name c <> "ComputeTarget" ->
    exists v f', platform tr f c = (Returns v, f').




(** PyTorch(source_directory=..., compute_target=..., entry_script=..., pip_packages=[...]) *)
Definition estimator_call (sf ct : value) : call :=
  Call (VAttr (VModule "azureml.train.dnn") "PyTorch") []
       [("source_directory", sf); ("compute_target", ct);
        ("entry_script", VStr "pytorch_train.py");
        ("pip_packages", VList [VStr "pillow==5.4.1"])].





(** Cell code that leaves the binding of [x] as it found it. *)
Definition keeps (x : string) {A} (m : M A) : Prop :=
  forall st, assoc x (ns (m st).2) = assoc x (ns st).

(** A kernel in which a pipeline run is bound, for the best-run cell. *)
Definition kernel_with_run : state :=
  State [("pipeline_run", VObj 5); ("hd_step_name", VStr "Hyperdrive_step");
         ("HyperDriveStepRun", HyperDriveStepRun_class)] ∅ [].

(** The answering platform on which [find_step_run] finds nothing. *)
Definition sdk_no_step_run : platform_t := fun tr f c =>
  if String.eqb (callee_name c) "find_step_run" then (Returns (VList []), f)
  else sdk_ok VNone tr f c.

(** A kernel after the import cell, the project path taken by a plain file. *)
Definition kernel_with_blocked_path : state :=
  State [("shutil", VModule "shutil")]
        {[ "./pytorch-birds" := File "notes" 420; "pytorch_train.py" := training_script ]} [].

(** A kernel in which cell 13 has been run before and the workspace exists. *)
Definition kernel_with_folder : state :=
  State [("script_folder", VStr "./pytorch-birds"); ("ws", VObj 0)] ∅ [].

(** ** Stepping through cell code *)

Section Steps.

Variable platform : platform_t.
Context {A : Type}.

Lemma bind_name_bound x v (k : value -> M A) st :
  assoc x (ns st) = Some v -> bind (name x) k st = k v st.
Proof. intros H. unfold bind, name. now rewrite H. Qed.

Lemma bind_name_builtin x (k : value -> M A) st :
  assoc x (ns st) = None -> existsb (String.eqb x) builtins = true ->
  bind (name x) k st = k (VBuiltin x) st.
Proof. intros H Hb. unfold bind, name. now rewrite H, Hb. Qed.

Lemma bind_name_unbound x (k : value -> M A) st :
  assoc x (ns st) = None -> existsb (String.eqb x) builtins = false ->
  bind (name x) k st = (Raise (NameError x), st).
Proof. intros H Hb. unfold bind, name. now rewrite H, Hb. Qed.

Lemma bind_call f a kw (k : value -> M A) st :
  bind (call_ platform f a kw) k st =
  match respond platform (Call f a kw) st with
  | (Returns v, f') => k v (State (ns st) f' (trace st ++ [(Call f a kw, Returns v)]))
  | (Raises e, f') => (Raise e, State (ns st) f' (trace st ++ [(Call f a kw, Raises e)]))
  end.
Proof. unfold bind, call_, invoke. destruct (respond _ _ _) as [[v|e] f']; reflexivity. Qed.

End Steps.

Lemma bind_bind {A B C} (m : M A) (f : A -> M B) (k : B -> M C) st :
  bind (bind m f) k st = bind m (fun x => bind (f x) k) st.
Proof. unfold bind. destruct (m st) as [[a|e] st']; reflexivity. Qed.

Lemma bind_try_except {A B} (body handler : M A) cls (k : A -> M B) st :
  bind (try_except body cls handler) k st =
  match body st with
  | (OK a, st') => k a st'
  | (Raise e, st') =>
      if String.eqb (exn_class e) cls then bind handler k st' else (Raise e, st')
  end.
Proof.
  unfold bind, try_except. destruct (body st) as [[a|e] st']; [reflexivity|].
  destruct (String.eqb (exn_class e) cls); reflexivity.
Qed.

Ltac solve_assoc := cbn; first [reflexivity | eassumption].

Ltac step_name :=
  match goal with
  | |- context [bind (name ?x) ?k ?s] =>
      first [ erewrite (bind_name_bound x _ k s) by solve_assoc
            | rewrite (bind_name_builtin x k s) by solve_assoc
            | rewrite (bind_name_unbound x k s) by solve_assoc ]
  end.

Ltac step_call :=
  match goal with
  | |- context [bind (call_ ?p ?f ?a ?kw) ?k ?s] =>
      rewrite (bind_call p f a kw k s); unfold respond
  end.

Ltac steps :=
  unfold import_, import_as;
  repeat (cbn; first [rewrite bind_bind | step_name | step_call]); cbn.

(** Case on the answer of the next platform call in the goal. *)
Ltac ask :=
  match goal with
  | |- context [?p ?t ?f (Call ?g ?a ?kw)] =>
      let v := fresh "v" in let e := fresh "e" in
      let f' := fresh "f" in let E := fresh "E" in
      destruct (p t f (Call g a kw)) as [[v|e] f'] eqn:E
  end.

Ltac tidy_trace := rewrite <- ?app_assoc; cbn.

(** ** The compute-target fallback *)

(** C1. The cluster is looked up by the name "cpu-cluster" first.  When the
    lookup answers with a target, that target is bound unchanged and nothing
    else but the message is issued.  A provisioning or create call appears
    only after the lookup raised ComputeTargetException; in that case the
    handler runs: the provisioning request, the creation under the same name
    with that configuration, the wait on the created target, and the created
    target is the one bound.  Any other exception of the lookup leaves the
    cell at once. *)
Theorem compute_target_fallback platform st w o f1 :
  assoc "ws" (ns st) = Some w ->
  print_unbound st ->
  platform (trace st) (fs st) (lookup_call w) = (o, f1) ->
  exists evs,
    trace (create_or_attach_compute platform st).2 = trace st ++ (lookup_call w, o) :: evs /\
    (forall v, o = Returns v ->
       (create_or_attach_compute platform st).1 = OK tt /\
       assoc "compute_target" (ns (create_or_attach_compute platform st).2) = Some v /\
       evs = [(print_call "Found existing compute target.", Returns VNone)]) /\
    (issued "provisioning_configuration" evs || issued "create" evs = true ->
       exists m, o = Raises (ComputeTargetNotFound m)) /\
    (forall m, o = Raises (ComputeTargetNotFound m) ->
       handler_ran w evs (create_or_attach_compute platform st).1
                   (create_or_attach_compute platform st).2) /\
    (forall e, o = Raises e -> exn_class e <> "ComputeTargetException" ->
       (create_or_attach_compute platform st).1 = Raise e /\ evs = []).
Proof.
  intros Hws Hpr Hl. unfold print_unbound, lookup_call, handler_ran in *.
  unfold create_or_attach_compute. cbn. unfold try_except.
  steps. rewrite Hl. destruct o as [v|[cls m]].
  - steps. tidy_trace. eexists; split; [reflexivity|].
    split; [|split; [|split]].
    + intros v' [= <-]. repeat split.
    + cbn. discriminate.
    + discriminate.
    + discriminate.
  - cbn. destruct (String.eqb cls "ComputeTargetException") eqn:Ecls.
    + apply String.eqb_eq in Ecls. subst cls.
      steps. ask; steps; [ask; steps; [ask; steps|]|];
        tidy_trace; (eexists; split; [reflexivity|]);
        (split; [discriminate|split; [intros _; eexists; reflexivity|split;
           [intros ? _ | intros e' [= <-] Hne; cbn in Hne; congruence]]]);
        (do 2 eexists; split; [reflexivity|]).
      * do 2 eexists. split; [reflexivity|]. eexists. repeat split.
      * do 2 eexists. split; [reflexivity|]. eexists. repeat split.
      * do 2 eexists. split; [reflexivity|]. split; reflexivity.
      * split; reflexivity.
    + apply String.eqb_neq in Ecls. tidy_trace.
      exists []. split; [reflexivity|].
      split; [discriminate|split; [cbn; discriminate|split]].
      * unfold ComputeTargetNotFound. intros m' [= -> _]. congruence.
      * intros e' [= <-] _. split; reflexivity.
Qed.

(** The fallback on a platform that knows the cluster, and on one that does
    not. *)
Lemma compute_target_fallback_witness :
  (exists evs,
     trace (create_or_attach_compute (sdk_ok VNone) kernel_with_ws).2 =
       trace kernel_with_ws ++ (lookup_call (VObj 0), Returns (VObj 0)) :: evs /\
     evs = [(print_call "Found existing compute target.", Returns VNone)]) /\
  (exists evs,
     trace (create_or_attach_compute (sdk_no_cluster VNone) kernel_with_ws).2 =
       trace kernel_with_ws ++
       (lookup_call (VObj 0), Raises (ComputeTargetNotFound "ComputeTargetNotFound")) :: evs /\
     handler_ran (VObj 0) evs
       (create_or_attach_compute (sdk_no_cluster VNone) kernel_with_ws).1
       (create_or_attach_compute (sdk_no_cluster VNone) kernel_with_ws).2).
Proof.
  split.
  - destruct (compute_target_fallback (sdk_ok VNone) kernel_with_ws (VObj 0)
                (Returns (VObj 0)) (fs kernel_with_ws))
      as (evs & Ht & Hfound & _); [reflexivity | reflexivity | reflexivity |].
    exists evs. split; [exact Ht|].
    destruct (Hfound (VObj 0) eq_refl) as (_ & _ & He). exact He.
  - destruct (compute_target_fallback (sdk_no_cluster VNone) kernel_with_ws (VObj 0)
                (Raises (ComputeTargetNotFound "ComputeTargetNotFound")) (fs kernel_with_ws))
      as (evs & Ht & _ & _ & Hran & _); [reflexivity | reflexivity | reflexivity |].
    exists evs. split; [exact Ht|]. exact (Hran _ eq_refl).
Defined.

(** C8. When the lookup finds no cluster, the provisioning request is
    [provisioning_configuration] with no positional argument and exactly the
    keywords vm_size='STANDARD_D3_V2' and max_nodes=4; what follows is the
    creation under the same name with that configuration and the wait on the
    created target, each only if the call before it returned. *)
Theorem provisioning_request_parameters platform st w m f1 :
  assoc "ws" (ns st) = Some w ->
  print_unbound st ->
  platform (trace st) (fs st) (lookup_call w) = (Raises (ComputeTargetNotFound m), f1) ->
  exists o rest,
    trace (create_or_attach_compute platform st).2 =
      trace st ++ [(lookup_call w, Raises (ComputeTargetNotFound m));
                   (print_call "Creating a new compute target...", Returns VNone);
                   (provisioning_call, o)] ++ rest /\
    issued "provisioning_configuration" rest = false /\
    match o with
    | Raises e => rest = [] /\ (create_or_attach_compute platform st).1 = Raise e
    | Returns cfg =>
        exists o' rest', rest = (create_call w cfg, o') :: rest' /\
        match o' with
        | Raises e => rest' = [] /\ (create_or_attach_compute platform st).1 = Raise e
        | Returns t =>
            exists o'', rest' = [(wait_call t, o'')] /\
            assoc "compute_target" (ns (create_or_attach_compute platform st).2) = Some t
        end
    end.
Proof.
  intros Hws Hpr Hl. unfold print_unbound, lookup_call, ComputeTargetNotFound in *.
  unfold create_or_attach_compute. cbn. unfold try_except.
  steps. rewrite Hl. steps.
  ask; steps.
  - ask; steps.
    + ask; steps; tidy_trace;
        (do 2 eexists; split; [reflexivity|]; split; [reflexivity|]);
        (do 2 eexists; split; [reflexivity|]);
        (eexists; split; reflexivity).
    + tidy_trace. do 2 eexists; split; [reflexivity|]. split; [reflexivity|].
      do 2 eexists; split; [reflexivity|]. split; reflexivity.
  - tidy_trace. exists (Raises e), []. repeat split.
Qed.

(** On a platform without the cluster the three calls are issued in order. *)
Lemma provisioning_request_parameters_witness :
  exists o rest,
    trace (create_or_attach_compute (sdk_no_cluster VNone) kernel_with_ws).2 =
      [(lookup_call (VObj 0), Raises (ComputeTargetNotFound "ComputeTargetNotFound"));
       (print_call "Creating a new compute target...", Returns VNone);
       (provisioning_call, o)] ++ rest /\
    issued "provisioning_configuration" rest = false.
Proof.
  destruct (provisioning_request_parameters (sdk_no_cluster VNone) kernel_with_ws (VObj 0)
              "ComputeTargetNotFound" (fs kernel_with_ws))
    as (o & rest & Ht & Hn & _); [reflexivity | reflexivity | reflexivity |].
  exists o, rest. split; [exact Ht | exact Hn].
Defined.

(** Case on the next platform call when the platform never raises. *)
Ltac ask_ok H :=
  match type of H with
  | never_raises ?p =>
      match goal with
      | |- context [p ?t ?f ?c] =>
          let v := fresh "v" in let f' := fresh "f" in let E := fresh "E" in
          destruct (H t f c) as (v & f' & E); rewrite E
      end
  end.

(** ** The hyperparameter sweep payload *)

(** C4. On a platform that answers, the sweep cell issues exactly five calls:
    uniform(0.0005, 0.005) and uniform(0.9, 0.99), RandomParameterSampling on
    the dict of the two under 'learning_rate' and 'momentum', BanditPolicy
    with slack_factor=0.15, evaluation_interval=1, delay_evaluation=10, and
    HyperDriveConfig with the estimator, that sampling, that policy,
    'best_val_acc', MAXIMIZE, max_total_runs=8 and max_concurrent_runs=4. *)
Theorem sweep_payload platform st est :
  assoc "est" (ns st) = Some est ->
  never_raises platform ->
  exists lr mo ps pol hd,
    (hyperdrive_config platform st).1 = OK tt /\
    trace (hyperdrive_config platform st).2 =
      trace st ++ [(uniform_call (5 # 10000) (5 # 1000), Returns lr);
                   (uniform_call (9 # 10) (99 # 100), Returns mo);
                   (sampling_call lr mo, Returns ps);
                   (bandit_call, Returns pol);
                   (hd_config_call est ps pol, Returns hd)] /\
    assoc "hd_config" (ns (hyperdrive_config platform st).2) = Some hd.
Proof.
  intros Hest Hok. unfold hyperdrive_config.
  steps. ask_ok Hok. steps. ask_ok Hok. steps. ask_ok Hok. steps.
  ask_ok Hok. steps. ask_ok Hok. steps. tidy_trace.
  do 5 eexists. repeat split.
Qed.

Lemma sdk_ok_never_raises d : never_raises (sdk_ok d).
Proof. intros tr f c. unfold sdk_ok. eauto. Qed.

(** The payload on the answering platform. *)
Lemma sweep_payload_witness :
  exists lr mo ps pol hd,
    trace (hyperdrive_config (sdk_ok VNone) kernel_with_est).2 =
      [(uniform_call (5 # 10000) (5 # 1000), Returns lr);
       (uniform_call (9 # 10) (99 # 100), Returns mo);
       (sampling_call lr mo, Returns ps);
       (bandit_call, Returns pol);
       (hd_config_call (VObj 0) ps pol, Returns hd)].
Proof.
  destruct (sweep_payload (sdk_ok VNone) kernel_with_est (VObj 0))
    as (lr & mo & ps & pol & hd & _ & Ht & _);
    [reflexivity | apply sdk_ok_never_raises |].
  exists lr, mo, ps, pol, hd. exact Ht.
Defined.

(** ** After the sweep: download, load, export, check, register *)

(** C7. With a best run at hand and a platform that answers, the four cells
    issue, in this order: the download of 'outputs/model.pt' into 'model.pt',
    torch.load of that file, the draw of the dummy input of shape
    (1, 3, 224, 224), torch.onnx.export of the loaded model with that input
    into 'model.onnx', onnx.load of that file, onnx.checker.check_model on
    it, and Model.register of 'model.onnx' under the name 'onnx-birds'. *)
Theorem model_handling_sequence platform st b w :
  assoc "best_run" (ns st) = Some b ->
  assoc "ws" (ns st) = Some w ->
  print_unbound st ->
  never_raises platform ->
  exists pt model dummy ex om ck reg,
    (convert_and_register platform st).1 = OK tt /\
    trace (convert_and_register platform st).2 =
      trace st ++ [(download_call b, Returns pt);
                   (torch_load_call, Returns model);
                   (randn_call, Returns dummy);
                   (export_call model dummy, Returns ex);
                   (onnx_load_call, Returns om);
                   (check_model_call om, Returns ck);
                   (register_call w, Returns reg);
                   (print_model_call reg, Returns VNone)].
Proof.
  intros Hb Hw Hpr Hok. unfold print_unbound in Hpr.
  unfold convert_and_register, download_model, export_onnx, check_onnx, register_model.
  steps. ask_ok Hok. steps. ask_ok Hok. steps. ask_ok Hok. steps. ask_ok Hok. steps.
  ask_ok Hok. steps. ask_ok Hok. steps. ask_ok Hok. steps. tidy_trace.
  do 7 eexists. split; reflexivity.
Qed.

(** The sequence on the answering platform. *)
Lemma model_handling_sequence_witness :
  exists pt model dummy ex om ck reg,
    trace (convert_and_register (sdk_ok (VObj 7)) kernel_after_sweep).2 =
      [(download_call (VObj 1), Returns pt);
       (torch_load_call, Returns model);
       (randn_call, Returns dummy);
       (export_call model dummy, Returns ex);
       (onnx_load_call, Returns om);
       (check_model_call om, Returns ck);
       (register_call (VObj 0), Returns reg);
       (print_model_call reg, Returns VNone)].
Proof.
  destruct (model_handling_sequence (sdk_ok (VObj 7)) kernel_after_sweep (VObj 1) (VObj 0))
    as (pt & model & dummy & ex & om & ck & reg & _ & Ht);
    [reflexivity | reflexivity | reflexivity | apply sdk_ok_never_raises |].
  exists pt, model, dummy, ex, om, ck, reg. exact Ht.
Defined.

(** ** The dummy input of the export *)

(** C10, as stated, fails: the notebook sets no seed, so what two runs of
    the export cell pass depends on the generator alone.  With a generator
    that is in the same state at each run (the same seed restored
    beforehand), the cell hands the same tensor to the export: in two
    kernels holding different models, and in one kernel run twice. *)
Lemma same_draw_same_export_counterexample :
  exported_dummies (trace (export_onnx (sdk_ok (VObj 7)) kernel_with_model).2) =
    exported_dummies (trace (export_onnx (sdk_ok (VObj 7)) kernel_with_other_model).2) /\
  (run_times 2 (export_onnx (sdk_ok (VObj 7))) kernel_with_model).1 = OK tt /\
  exported_dummies (trace (run_times 2 (export_onnx (sdk_ok (VObj 7))) kernel_with_model).2)
    = [VObj 7; VObj 7] /\
  ~ exports_differ (trace (run_times 2 (export_onnx (sdk_ok (VObj 7))) kernel_with_model).2).
Proof.
  split; [reflexivity|]. split; [reflexivity|]. split; [reflexivity|].
  unfold exports_differ.
  change (exported_dummies
            (trace (run_times 2 (export_onnx (sdk_ok (VObj 7))) kernel_with_model).2))
    with [VObj 7; VObj 7].
  intros H. apply NoDup_cons in H as [Hin _]. apply Hin. left.
Qed.

(** C10, amended. The export cell always opens with torch.randn(1, 3, 224, 224),
    so the shape is the same in every run; no other call (no seeding) comes
    before the export, and the tensor handed to torch.onnx.export is exactly
    the draw randn returned in that run.  Two runs therefore pass the same
    tensor when their generators draw the same, and different ones when the
    draws differ. *)
Theorem dummy_input_shape_fixed_values_drawn p1 p2 st1 st2 m1 m2 d1 d2 f1 f2 :
  assoc "best_run_model" (ns st1) = Some m1 ->
  assoc "best_run_model" (ns st2) = Some m2 ->
  p1 (trace st1) (fs st1) randn_call = (Returns d1, f1) ->
  p2 (trace st2) (fs st2) randn_call = (Returns d2, f2) ->
  exists o1 o2,
    trace (export_onnx p1 st1).2 =
      trace st1 ++ [(randn_call, Returns d1); (export_call m1 d1, o1)] /\
    trace (export_onnx p2 st2).2 =
      trace st2 ++ [(randn_call, Returns d2); (export_call m2 d2, o2)] /\
    args randn_call = [VInt 1; VInt 3; VInt 224; VInt 224] /\
    exported_dummies (drop (length (trace st1)) (trace (export_onnx p1 st1).2)) = [d1] /\
    exported_dummies (drop (length (trace st2)) (trace (export_onnx p2 st2).2)) = [d2] /\
    (exported_dummies (drop (length (trace st1)) (trace (export_onnx p1 st1).2)) =
     exported_dummies (drop (length (trace st2)) (trace (export_onnx p2 st2).2))
     <-> d1 = d2) /\
    (forall p st, exists o rest,
        trace (export_onnx p st).2 = trace st ++ (randn_call, o) :: rest).
Proof.
  intros H1 H2 E1 E2. unfold randn_call in E1, E2.
  assert (Hrun : forall p st m d f,
             assoc "best_run_model" (ns st) = Some m ->
             p (trace st) (fs st) randn_call = (Returns d, f) ->
             exists o, trace (export_onnx p st).2 =
                         trace st ++ [(randn_call, Returns d); (export_call m d, o)]).
  { intros p st m d f Hm Hd. unfold randn_call in Hd. unfold export_onnx.
    steps. rewrite Hd. steps. ask; steps; tidy_trace; eexists; reflexivity. }
  destruct (Hrun p1 st1 m1 d1 f1 H1 E1) as [o1 T1].
  destruct (Hrun p2 st2 m2 d2 f2 H2 E2) as [o2 T2].
  exists o1, o2. rewrite T1, T2, !drop_app_length.
  split; [reflexivity|]. split; [reflexivity|]. split; [reflexivity|].
  split; [reflexivity|]. split; [reflexivity|]. split.
  - cbn. split; [intros [= ->]; reflexivity | intros ->; reflexivity].
  - intros p st. unfold export_onnx. steps. ask; steps.
    + destruct (assoc "best_run_model" (ns st)) eqn:Hm; steps;
        [ask; steps|]; tidy_trace; do 2 eexists; reflexivity.
    + tidy_trace. do 2 eexists. reflexivity.
Qed.

(** Two runs of the export cell on platforms whose generators draw
    different tensors. *)
Lemma dummy_input_shape_fixed_values_drawn_witness :
  exported_dummies (trace (export_onnx (sdk_ok (VObj 100)) kernel_with_model).2) = [VObj 100] /\
  exported_dummies (trace (export_onnx (sdk_ok (VObj 200)) kernel_with_model).2) = [VObj 200].
Proof.
  destruct (dummy_input_shape_fixed_values_drawn
              (sdk_ok (VObj 100)) (sdk_ok (VObj 200)) kernel_with_model kernel_with_model
              (VObj 0) (VObj 0) (VObj 100) (VObj 200) ∅ ∅)
    as (o1 & o2 & _ & _ & _ & Hd1 & Hd2 & _); try reflexivity.
  split; [exact Hd1 | exact Hd2].
Defined.

(** ** Submission and best-run selection *)

Lemma blocks_after_submit_wait evs :
  blocks_after_submit evs -> existsb (fun ev => is_wait_or_poll ev.1) evs = true.
Proof.
  intros (i & j & s & w & _ & _ & _ & Hj & Hw).
  apply existsb_exists. exists w. split; [|exact Hw].
  apply list_elem_of_In. eapply list_elem_of_lookup_2. exact Hj.
Qed.

(** C6, as stated, fails: with [pipeline] bound and a platform that answers,
    submission and best-run selection both run, and no wait or poll call
    follows the submission. *)
Lemma no_wait_after_submit_counterexample :
  (submit_and_select (sdk_ok VNone) sweep_ready_kernel).1 = OK tt /\
  issued "submit" (trace (submit_and_select (sdk_ok VNone) sweep_ready_kernel).2) = true /\
  ~ blocks_after_submit (trace (submit_and_select (sdk_ok VNone) sweep_ready_kernel).2).
Proof.
  split; [reflexivity|]. split; [reflexivity|].
  intros H. apply blocks_after_submit_wait in H.
  vm_compute in H. discriminate.
Qed.

(** C6, amended. Once [pipeline] is bound, the calls from the submission
    cell to the best run are exactly: Experiment, Pipeline, exp.submit,
    find_step_run by the step name, HyperDriveStepRun on its first element,
    get_best_run_by_primary_metric.  Best-run selection follows the
    submission at once; none of the calls waits or polls. *)
Theorem selection_follows_submission platform st w step n p :
  assoc "Experiment" (ns st) = Some Experiment_class ->
  assoc "Pipeline" (ns st) = Some Pipeline_class ->
  assoc "HyperDriveStepRun" (ns st) = Some HyperDriveStepRun_class ->
  assoc "ws" (ns st) = Some w ->
  assoc "hd_step" (ns st) = Some step ->
  assoc "hd_step_name" (ns st) = Some n ->
  assoc "pipeline" (ns st) = Some p ->
  never_raises platform ->
  finds_step_runs platform ->
  exists e p1 r sr l h b,
    (submit_and_select platform st).1 = OK tt /\
    trace (submit_and_select platform st).2 =
      trace st ++ [(experiment_call w, Returns e);
                   (pipeline_call w step, Returns p1);
                   (submit_call e p, Returns r);
                   (find_step_run_call r n, Returns (VList (sr :: l)));
                   (step_run_call sr, Returns h);
                   (best_run_call h, Returns b)] /\
    assoc "best_run" (ns (submit_and_select platform st).2) = Some b /\
    existsb (fun ev => is_wait_or_poll ev.1)
            (drop (length (trace st)) (trace (submit_and_select platform st).2)) = false.
Proof.
  intros HE HP HH Hw Hs Hn Hp Hok Hfind.
  unfold Experiment_class, Pipeline_class, HyperDriveStepRun_class in *.
  unfold submit_and_select, run_pipeline, find_best_model.
  steps. ask_ok Hok. steps. ask_ok Hok. steps. ask_ok Hok. steps.
  match goal with
  | |- context [platform ?t ?f (Call (VAttr ?r _) ?a ?kw)] =>
      destruct (Hfind t f r a kw) as (sr & l & f' & Ef); rewrite Ef
  end.
  steps. ask_ok Hok. steps. ask_ok Hok. steps. tidy_trace.
  do 7 eexists. split; [reflexivity|]. split; [reflexivity|]. split; [reflexivity|].
  rewrite drop_app_length. reflexivity.
Qed.

(** The six calls on the answering platform, from the prepared kernel. *)
Lemma selection_follows_submission_witness :
  exists e p1 r sr l h b,
    trace (submit_and_select (sdk_ok VNone) sweep_ready_kernel).2 =
      [(experiment_call (VObj 1), Returns e);
       (pipeline_call (VObj 1) (VObj 2), Returns p1);
       (submit_call e (VObj 3), Returns r);
       (find_step_run_call r (VStr "Hyperdrive_step"), Returns (VList (sr :: l)));
       (step_run_call sr, Returns h);
       (best_run_call h, Returns b)].
Proof.
  destruct (selection_follows_submission (sdk_ok VNone) sweep_ready_kernel
              (VObj 1) (VObj 2) (VStr "Hyperdrive_step") (VObj 3))
    as (e & p1 & r & sr & l & h & b & _ & Ht & _); try reflexivity.
  - apply sdk_ok_never_raises.
  - intros tr f r a kw. unfold sdk_ok. cbn. eauto.
  - exists e, p1, r, sr, l, h, b. exact Ht.
Defined.

(** ** A run from a kernel just started *)

Ltac step_call_raw :=
  match goal with
  | |- context [bind (call_ ?p ?f ?a ?kw) ?k ?s] => rewrite (bind_call p f a kw k s)
  end.

Ltac ask_any :=
  match goal with
  | |- context [respond ?p ?c ?s] =>
      let v := fresh "v" in let e := fresh "e" in let f' := fresh "f" in
      destruct (respond p c s) as [[v|e] f']
  end.

Ltac case_handler :=
  match goal with
  | |- context [String.eqb (exn_class ?e) ?c] => destruct (String.eqb (exn_class e) c)
  end.

Ltac walk :=
  repeat (cbn; first [rewrite bind_bind | rewrite bind_try_except
                     | step_call_raw | ask_any | case_handler]); cbn.

(** Whatever the platform and the local files, a run of the whole notebook
    from a kernel just started never completes, and calls nothing outside
    [early_callees]. *)
Lemma started_run platform f :
  let '(r, st') := notebook platform (started f) in
  r <> OK tt /\ only_calls early_callees (trace st') = true.
Proof.
  unfold notebook, cells, run_cells, started.
  unfold import_sdk, initialize_workspace, get_datastore, create_or_attach_compute,
    create_project_directory, copy_training_script, create_estimator,
    define_input_output, hyperdrive_config, hyperdrive_step, run_pipeline,
    import_, import_as.
  walk; (split; [discriminate | reflexivity]).
Qed.

Lemma only_calls_not_issued allowed a evs :
  existsb (String.eqb a) allowed = false ->
  only_calls allowed evs = true -> issued a evs = false.
Proof.
  intros Ha. unfold issued, only_calls.
  induction evs as [|ev evs IH]; simpl; [reflexivity|].
  intros [Hev Hevs]%andb_prop. rewrite (IH Hevs), orb_false_r.
  destruct (String.eqb (callee_name ev.1) a) eqn:E; [|reflexivity].
  apply String.eqb_eq in E. rewrite E in Hev. congruence.
Qed.

Lemma started_run_not_issued platform f a :
  existsb (String.eqb a) early_callees = false ->
  issued a (trace (notebook platform (started f)).2) = false.
Proof.
  intros Ha. pose proof (started_run platform f) as H.
  destruct (notebook platform (started f)) as [r st']. destruct H as [_ Hc].
  apply (only_calls_not_issued early_callees); assumption.
Qed.

Lemma started_run_raises platform f : (notebook platform (started f)).1 <> OK tt.
Proof.
  pose proof (started_run platform f) as H.
  destruct (notebook platform (started f)) as [r st']. destruct H as [Hr _]. exact Hr.
Qed.

(** C2. The submission statement reads the name [pipeline], which no cell
    binds (the pipeline is stored as [pipeline1]): from a kernel just
    started the run never completes and never issues exp.submit,
    find_step_run or get_best_run_by_primary_metric, whatever the platform
    answers; when every call answers, the run stops on NameError. *)
Theorem submission_raises_name_error platform f :
  (notebook platform (started f)).1 <> OK tt /\
  issued "submit" (trace (notebook platform (started f)).2) = false /\
  issued "find_step_run" (trace (notebook platform (started f)).2) = false /\
  issued "get_best_run_by_primary_metric" (trace (notebook platform (started f)).2) = false /\
  (notebook (sdk_ok VNone) fresh_kernel).1 = Raise (NameError "pipeline") /\
  issued "Pipeline" (trace (notebook (sdk_ok VNone) fresh_kernel).2) = true.
Proof.
  split; [apply started_run_raises|].
  do 3 (split; [apply started_run_not_issued; reflexivity|]).
  split; vm_compute; reflexivity.
Qed.

(** ** The datastore cell *)

(** C3, as stated, fails: neither the datastore cell nor the run of the
    whole notebook issues an upload call. *)
Lemma no_upload_counterexample :
  ~ uploads_data (trace (get_datastore (sdk_ok VNone) kernel_with_ws).2) /\
  ~ uploads_data (trace (notebook (sdk_ok VNone) fresh_kernel).2).
Proof. split; intros H; vm_compute in H; discriminate. Qed.

Lemma datastore_cell platform st w :
  assoc "ws" (ns st) = Some w ->
  exists o,
    trace (get_datastore platform st).2 = trace st ++ [(datastore_call w, o)] /\
    (forall d, o = Returns d -> assoc "data_dir" (ns (get_datastore platform st).2) = Some d).
Proof.
  intros Hw. unfold get_datastore, datastore_call.
  steps. ask; steps; eexists; (split; [reflexivity|]).
  - intros d [= <-]. reflexivity.
  - discriminate.
Qed.

(** C3, amended. The datastore cell issues one call, ws.get_default_datastore(),
    and binds its answer to [data_dir]; no upload call is issued by the
    notebook (the upload line is a comment). *)
Theorem datastore_fetched_without_upload platform st w :
  assoc "ws" (ns st) = Some w ->
  exists o,
    trace (get_datastore platform st).2 = trace st ++ [(datastore_call w, o)] /\
    (forall d, o = Returns d -> assoc "data_dir" (ns (get_datastore platform st).2) = Some d) /\
    (forall f, issued "upload" (trace (notebook platform (started f)).2) = false).
Proof.
  intros Hw. destruct (datastore_cell platform st w Hw) as (o & Ht & Hd).
  exists o. split; [exact Ht|]. split; [exact Hd|].
  intros f. apply started_run_not_issued. reflexivity.
Qed.

(** The datastore cell on the answering platform. *)
Lemma datastore_fetched_without_upload_witness :
  exists o,
    trace (get_datastore (sdk_ok VNone) kernel_with_ws).2 = [(datastore_call (VObj 0), o)].
Proof.
  destruct (datastore_fetched_without_upload (sdk_ok VNone) kernel_with_ws (VObj 0))
    as (o & Ht & _); [reflexivity|].
  exists o. exact Ht.
Defined.

(** ** Staging the training script *)

Ltac fs_simpl := cbn -[lookup insert].



(** Without exist_ok the second creation raises. *)
Lemma makedirs_project_dir_strict (f : fsys) :
  f !! project_dir = Some Dir ->
  makedirs project_dir false f = (Some (FileExistsError project_dir), f).
Proof.
  intros H. unfold makedirs, project_dir in *. fs_simpl.
  unfold mkdir, path_exists. fs_simpl. rewrite H. reflexivity.
Qed.




Ltac fsteps :=
  unfold import_, import_as;
  repeat (fs_simpl; first [rewrite bind_bind | step_name | step_call]); fs_simpl.

Ltac rewrite_paths lem :=
  let H := fresh in
  pose proof lem as H;
  unfold project_dir, script_path, staged_path in H; rewrite H; clear H.






(** ** Error handling *)



Section Sound.

Variable platform : platform_t.













End Sound.







(** A failing export leaves the cells after the sweep with that failure. *)
Example export_failure_propagates :
  (convert_and_register (sdk_failing "export") kernel_after_sweep).1 =
    Raise (Exn "ServiceException" "export") /\
  issued "register" (trace (convert_and_register (sdk_failing "export") kernel_after_sweep).2)
    = false.
Proof. split; vm_compute; reflexivity. Qed.

(** * Further properties of the cells *)

(** ** Staging: what goes wrong and what it leaves behind *)




Lemma makedirs_project_blocked (f : fsys) content mode :
  f !! project_dir = Some (File content mode) ->
  makedirs project_dir true f = (Some (FileExistsError project_dir), f).
Proof.
  intros H. unfold makedirs, project_dir in *. fs_simpl.
  unfold mkdir, path_exists, path_isdir. fs_simpl. rewrite H. fs_simpl.
  rewrite H. reflexivity.
Qed.

(** X2. exist_ok=True does not cover a project path taken by a plain file:
    the directory cell raises FileExistsError, the files stay as they were
    and the copy is never attempted. *)
Theorem staging_blocked_by_file platform st content mode :
  fs st !! project_dir = Some (File content mode) ->
  (stage_training_script platform st).1 = Raise (FileExistsError project_dir) /\
  fs (stage_training_script platform st).2 = fs st /\
  trace (stage_training_script platform st).2 =
    trace st ++ [(makedirs_call, Raises (FileExistsError project_dir))].
Proof.
  intros Hd.
  unfold stage_training_script, create_project_directory, copy_training_script.
  fsteps. rewrite_paths (makedirs_project_blocked _ content mode Hd). fsteps.
  repeat split.
Qed.

(** Staging where './pytorch-birds' is a file. *)
Lemma staging_blocked_by_file_witness :
  (stage_training_script (sdk_ok VNone) kernel_with_blocked_path).1 =
    Raise (FileExistsError project_dir) /\
  fs (stage_training_script (sdk_ok VNone) kernel_with_blocked_path).2 =
    fs kernel_with_blocked_path.
Proof.
  destruct (staging_blocked_by_file (sdk_ok VNone) kernel_with_blocked_path "notes" 420)
    as (Hr & Hf & _).
  - reflexivity.
  - split; [exact Hr | exact Hf].
Defined.

(** ** Best-run selection on an empty step-run list *)

(** X3. When find_step_run answers with an empty list, the subscript [0]
    raises IndexError: HyperDriveStepRun is not constructed, no best run is
    asked for, and the namespace is left as it was (best_run stays unbound
    if it was). *)
Theorem no_step_run_index_error platform st H r n f1 :
  assoc "HyperDriveStepRun" (ns st) = Some H ->
  assoc "pipeline_run" (ns st) = Some r ->
  assoc "hd_step_name" (ns st) = Some n ->
  platform (trace st) (fs st) (find_step_run_call r n) = (Returns (VList []), f1) ->
  find_best_model platform st =
    (Raise (IndexError "list index out of range"),
     State (ns st) f1 (trace st ++ [(find_step_run_call r n, Returns (VList []))])).
Proof.
  intros HH Hr Hn Hf. unfold find_step_run_call in Hf. unfold find_best_model.
  steps. rewrite Hf. reflexivity.
Qed.

(** The best-run cell on a platform that finds no step run. *)
Lemma no_step_run_index_error_witness :
  (find_best_model sdk_no_step_run kernel_with_run).1 =
    Raise (IndexError "list index out of range") /\
  assoc "best_run" (ns (find_best_model sdk_no_step_run kernel_with_run).2) = None.
Proof.
  rewrite (no_step_run_index_error sdk_no_step_run kernel_with_run
             HyperDriveStepRun_class (VObj 5) (VStr "Hyperdrive_step") ∅);
    try reflexivity.
  split; reflexivity.
Defined.

(** ** Registration comes only after a passed check *)

(** X4. In a run of the cells after the sweep, Model.register is issued only
    if the download, torch.load, the draw, the export, onnx.load and
    onnx.checker.check_model have all returned: a model whose export or
    check raised is never registered by that run. *)
Theorem registration_requires_passed_check platform st b w :
  assoc "best_run" (ns st) = Some b ->
  assoc "ws" (ns st) = Some w ->
  print_unbound st ->
  issued "register"
    (drop (length (trace st)) (trace (convert_and_register platform st).2)) = true ->
  exists pt model dummy ex om ck rest,
    trace (convert_and_register platform st).2 =
      trace st ++ [(download_call b, Returns pt);
                   (torch_load_call, Returns model);
                   (randn_call, Returns dummy);
                   (export_call model dummy, Returns ex);
                   (onnx_load_call, Returns om);
                   (check_model_call om, Returns ck)] ++ rest.
Proof.
  intros Hb Hw Hp. unfold print_unbound in Hp.
  unfold convert_and_register, download_model, export_onnx, check_onnx, register_model.
  steps.
  do 6 (ask; steps; [|tidy_trace; rewrite drop_app_length; cbn; discriminate]).
  intros _. ask; steps; tidy_trace; do 7 eexists; reflexivity.
Qed.

(** On the answering platform the registration is reached. *)
Lemma registration_requires_passed_check_witness :
  exists pt model dummy ex om ck rest,
    trace (convert_and_register (sdk_ok (VObj 7)) kernel_after_sweep).2 =
      [(download_call (VObj 1), Returns pt);
       (torch_load_call, Returns model);
       (randn_call, Returns dummy);
       (export_call model dummy, Returns ex);
       (onnx_load_call, Returns om);
       (check_model_call om, Returns ck)] ++ rest.
Proof.
  destruct (registration_requires_passed_check (sdk_ok (VObj 7)) kernel_after_sweep
              (VObj 1) (VObj 0))
    as (pt & model & dummy & ex & om & ck & rest & Ht); try reflexivity.
  exists pt, model, dummy, ex, om, ck, rest. exact Ht.
Defined.

(** ** The cells behind the submission, without its results *)

(** X5. In a kernel where the submission has bound nothing ([pipeline_run],
    [best_run] and [best_run_model] unbound) the best-run cell and the
    download cell raise NameError without issuing any call, and the export
    cell still draws the dummy input and then raises NameError on
    [best_run_model]: no export is issued. *)
Theorem cells_without_submission_results platform st :
  assoc "pipeline_run" (ns st) = None ->
  assoc "best_run" (ns st) = None ->
  assoc "best_run_model" (ns st) = None ->
  ((find_best_model platform st).1 = Raise (NameError "HyperDriveStepRun") \/
   (find_best_model platform st).1 = Raise (NameError "pipeline_run")) /\
  (find_best_model platform st).2 = st /\
  (download_model platform st).1 = Raise (NameError "best_run") /\
  trace (download_model platform st).2 = trace st /\
  exists o,
    trace (export_onnx platform st).2 = trace st ++ [(randn_call, o)] /\
    match o with
    | Returns _ => (export_onnx platform st).1 = Raise (NameError "best_run_model")
    | Raises e => (export_onnx platform st).1 = Raise e
    end.
Proof.
  intros Hr Hb Hm. split; [|split; [|split; [|split]]].
  - unfold find_best_model.
    destruct (assoc "HyperDriveStepRun" (ns st)) eqn:HH; steps; [right|left]; reflexivity.
  - unfold find_best_model.
    destruct (assoc "HyperDriveStepRun" (ns st)) eqn:HH; steps; destruct st; reflexivity.
  - unfold download_model. steps. reflexivity.
  - unfold download_model. steps. reflexivity.
  - unfold export_onnx. steps. ask; steps; eexists; split; reflexivity.
Qed.

(** The three cells in the kernel the failed run leaves behind. *)
Lemma cells_without_submission_results_witness :
  (find_best_model (sdk_ok VNone) (notebook (sdk_ok VNone) fresh_kernel).2).1 =
    Raise (NameError "pipeline_run") /\
  (download_model (sdk_ok VNone) (notebook (sdk_ok VNone) fresh_kernel).2).1 =
    Raise (NameError "best_run").
Proof.
  destruct (cells_without_submission_results (sdk_ok VNone)
              (notebook (sdk_ok VNone) fresh_kernel).2)
    as ([Hf|Hf] & _ & Hd & _); try (vm_compute; reflexivity).
  - exfalso. vm_compute in Hf. discriminate Hf.
  - split; [exact Hf | exact Hd].
Defined.

(** ** Handles are bound once *)

Section Keeps.

Variable platform : platform_t.
Variable x : string.

Lemma keeps_ret {A} (a : A) : keeps x (ret a).
Proof. intros st. reflexivity. Qed.

Lemma keeps_raise {A} (e : exn) : keeps x (@raise A e).
Proof. intros st. reflexivity. Qed.

Lemma keeps_name y : keeps x (name y).
Proof.
  intros st. unfold name.
  destruct (assoc y (ns st)); [|destruct (existsb _ _)]; reflexivity.
Qed.

Lemma keeps_assign y v : String.eqb x y = false -> keeps x (assign y v).
Proof. intros Hy st. unfold assign. cbn [fst snd ns assoc]. rewrite Hy. reflexivity. Qed.

Lemma keeps_call f a kw : keeps x (call_ platform f a kw).
Proof.
  intros st. unfold call_, invoke.
  destruct (respond platform (Call f a kw) st) as [[v|e] f']; reflexivity.
Qed.

Lemma keeps_bind {A B} (m : M A) (k : A -> M B) :
  keeps x m -> (forall a, keeps x (k a)) -> keeps x (bind m k).
Proof.
  intros Hm Hk st. specialize (Hm st). unfold bind.
  destruct (m st) as [[a|e] st1]; cbn [snd] in *; [|exact Hm].
  rewrite (Hk a st1). exact Hm.
Qed.

Lemma keeps_try_except {A} (body handler : M A) cls :
  keeps x body -> keeps x handler -> keeps x (try_except body cls handler).
Proof.
  intros Hb Hh st. specialize (Hb st). unfold try_except.
  destruct (body st) as [[a|e] st1]; cbn [snd] in *; [exact Hb|].
  destruct (String.eqb (exn_class e) cls); [|exact Hb].
  rewrite (Hh st1). exact Hb.
Qed.

Lemma keeps_from_import path names :
  forallb (fun n => negb (String.eqb x n)) names = true ->
  keeps x (from_import path names).
Proof.
  induction names as [|n names IH]; cbn [from_import forallb]; intros H; [apply keeps_ret|].
  apply andb_prop in H as [Hn Hs]. apply negb_true_iff in Hn.
  apply keeps_bind; [apply keeps_assign; exact Hn | intros _; apply IH; exact Hs].
Qed.

Lemma keeps_subscript v i : keeps x (subscript v i).
Proof.
  unfold subscript. destruct v; try apply keeps_raise.
  destruct (nth_error l i); [apply keeps_ret | apply keeps_raise].
Qed.

Lemma keeps_run_cells (allowed cs : list (M unit)) :
  (forall c, In c allowed -> keeps x c) ->
  (forall c, In c cs -> In c allowed) ->
  keeps x (run_cells cs).
Proof.
  intros Hall. induction cs as [|c cs IH]; intros Hcs; cbn [run_cells]; [apply keeps_ret|].
  apply keeps_bind.
  - apply Hall, Hcs. left. reflexivity.
  - intros _. apply IH. intros c' Hc'. apply Hcs. right. exact Hc'.
Qed.

End Keeps.

Ltac keeps_step :=
  lazymatch goal with
  | |- keeps _ (bind _ _) => apply keeps_bind; [|intros ?]
  | |- keeps _ (try_except _ _ _) => apply keeps_try_except
  | |- keeps _ (from_import _ _) => apply keeps_from_import; reflexivity
  | |- keeps _ (assign _ _) => apply keeps_assign; reflexivity
  | |- keeps _ (ret _) => apply keeps_ret
  | |- keeps _ (name _) => apply keeps_name
  | |- keeps _ (call_ _ _ _ _) => apply keeps_call
  | |- keeps _ (subscript _ _) => apply keeps_subscript
  end.

Ltac keeps_cell :=
  unfold get_datastore, create_or_attach_compute, create_project_directory,
    copy_training_script, create_estimator, define_input_output, hyperdrive_config,
    hyperdrive_step, run_pipeline, find_best_model, download_model, export_onnx,
    check_onnx, register_model, import_, import_as;
  repeat keeps_step.

Ltac keeps_cells :=
  let Hc := fresh "Hc" in
  intros ? Hc; cbn [drop cells In] in Hc;
  repeat (destruct Hc as [<- | Hc]); [..|contradiction]; keeps_cell.

Lemma later_cells_keep_ws platform c :
  In c (drop 2 (cells platform)) -> keeps "ws" c.
Proof. revert c. keeps_cells. Qed.

Lemma later_cells_keep_data_dir platform c :
  In c (drop 3 (cells platform)) -> keeps "data_dir" c.
Proof. revert c. keeps_cells. Qed.

Lemma later_cells_keep_compute_target platform c :
  In c (drop 4 (cells platform)) -> keeps "compute_target" c.
Proof. revert c. keeps_cells. Qed.

Lemma later_cells_keep_est platform c :
  In c (drop 7 (cells platform)) -> keeps "est" c.
Proof. revert c. keeps_cells. Qed.

(** X6. Each handle is bound by one cell only.  Whatever cells after the
    workspace cell are run, in whatever order and on whatever platform, [ws]
    keeps its binding; likewise [data_dir] under the cells after the
    datastore cell, [compute_target] under the cells after the compute cell
    and [est] under the cells after the estimator cell. *)
Theorem handles_are_bound_once platform cs st :
  ((forall c, In c cs -> In c (drop 2 (cells platform))) ->
   assoc "ws" (ns (run_cells cs st).2) = assoc "ws" (ns st)) /\
  ((forall c, In c cs -> In c (drop 3 (cells platform))) ->
   assoc "data_dir" (ns (run_cells cs st).2) = assoc "data_dir" (ns st)) /\
  ((forall c, In c cs -> In c (drop 4 (cells platform))) ->
   assoc "compute_target" (ns (run_cells cs st).2) = assoc "compute_target" (ns st)) /\
  ((forall c, In c cs -> In c (drop 7 (cells platform))) ->
   assoc "est" (ns (run_cells cs st).2) = assoc "est" (ns st)).
Proof.
  repeat split; intros Hcs.
  - apply (keeps_run_cells "ws" (drop 2 (cells platform)));
      [apply later_cells_keep_ws | exact Hcs].
  - apply (keeps_run_cells "data_dir" (drop 3 (cells platform)));
      [apply later_cells_keep_data_dir | exact Hcs].
  - apply (keeps_run_cells "compute_target" (drop 4 (cells platform)));
      [apply later_cells_keep_compute_target | exact Hcs].
  - apply (keeps_run_cells "est" (drop 7 (cells platform)));
      [apply later_cells_keep_est | exact Hcs].
Qed.

(** The cells after the sweep keep the workspace handle of their kernel. *)
Lemma handles_are_bound_once_witness :
  assoc "ws" (ns (run_cells (drop 12 (cells (sdk_ok VNone))) kernel_after_sweep).2) =
    Some (VObj 0).
Proof.
  pose proof (handles_are_bound_once (sdk_ok VNone)
                (drop 12 (cells (sdk_ok VNone))) kernel_after_sweep) as (Hws & _).
  rewrite Hws; [reflexivity|].
  intros c Hc. cbn [drop cells In] in *. tauto.
Defined.

(** ** From the compute target to the estimator *)

Ltac xsteps :=
  unfold import_, import_as;
  repeat (cbn; first [rewrite bind_bind | rewrite bind_try_except | step_name | step_call]);
  cbn.

Ltac ask_but_lookup H :=
  match type of H with
  | answers_but_lookup ?p =>
      match goal with
      | |- context [p ?t ?f ?c] =>
          let v := fresh "v" in let f' := fresh "f" in let E := fresh "E" in
          destruct (H t f c) as (v & f' & E);
          [cbn; discriminate | rewrite E]
      end
  end.

(** X7. The estimator is built on the target the fallback acquired: the
    target the lookup returned when the cluster exists, the target
    ComputeTarget.create returned when the lookup raised
    ComputeTargetException and the cluster was provisioned. *)
Theorem estimator_uses_acquired_target platform st w sf o f1 :
  assoc "ws" (ns st) = Some w ->
  assoc "script_folder" (ns st) = Some sf ->
  print_unbound st ->
  answers_but_lookup platform ->
  platform (trace st) (fs st) (lookup_call w) = (o, f1) ->
  (forall e, o = Raises e -> exn_class e = "ComputeTargetException") ->
  exists t e evs,
    (run_cells [create_or_attach_compute platform; create_estimator platform] st).1 = OK tt /\
    trace (run_cells [create_or_attach_compute platform; create_estimator platform] st).2 =
      trace st ++ (lookup_call w, o) :: evs ++ [(estimator_call sf t, Returns e)] /\
    assoc "est"
      (ns (run_cells [create_or_attach_compute platform; create_estimator platform] st).2)
      = Some e /\
    match o with
    | Returns v =>
        t = v /\ evs = [(print_call "Found existing compute target.", Returns VNone)]
    | Raises _ =>
        exists cfg wt,
          evs = [(print_call "Creating a new compute target...", Returns VNone);
                 (provisioning_call, Returns cfg);
                 (create_call w cfg, Returns t);
                 (wait_call t, Returns wt)]
    end.
Proof.
  intros Hw Hsf Hp Hab Hl Hcls. unfold print_unbound, lookup_call in *.
  cbn [run_cells]. unfold create_or_attach_compute, create_estimator.
  xsteps. rewrite Hl. destruct o as [v|ex].
  - steps. ask_but_lookup Hab. steps. tidy_trace.
    eexists _, _, [_]. split; [reflexivity|]. split; [reflexivity|]. split; [reflexivity|].
    split; reflexivity.
  - cbn. rewrite (Hcls ex eq_refl). cbn.
    steps. ask_but_lookup Hab. steps. ask_but_lookup Hab. steps.
    ask_but_lookup Hab. steps. ask_but_lookup Hab. steps. tidy_trace.
    eexists _, _, [_; _; _; _].
    split; [reflexivity|]. split; [reflexivity|]. split; [reflexivity|].
    do 2 eexists. reflexivity.
Qed.

Lemma sdk_no_cluster_answers_but_lookup d : answers_but_lookup (sdk_no_cluster d).
Proof.
  intros tr f c Hc. unfold sdk_no_cluster, callee_name in *.
  destruct (fn c) as [| | | | | | | | |g a| |]; try (unfold sdk_ok; eauto).
  destruct g as [| | | | | | |m| | | |]; try (unfold sdk_ok; eauto).
  destruct (String.eqb a "ComputeTarget") eqn:Ea; [|unfold sdk_ok; eauto].
  apply String.eqb_eq in Ea. contradiction.
Qed.

(** Both cells on a platform without the cluster. *)
Lemma estimator_uses_acquired_target_witness :
  exists t e evs cfg wt,
    trace (run_cells [create_or_attach_compute (sdk_no_cluster VNone);
                      create_estimator (sdk_no_cluster VNone)] kernel_with_folder).2 =
      (lookup_call (VObj 0), Raises (ComputeTargetNotFound "ComputeTargetNotFound"))
        :: evs ++ [(estimator_call (VStr "./pytorch-birds") t, Returns e)] /\
    evs = [(print_call "Creating a new compute target...", Returns VNone);
           (provisioning_call, Returns cfg);
           (create_call (VObj 0) cfg, Returns t);
           (wait_call t, Returns wt)].
Proof.
  destruct (estimator_uses_acquired_target (sdk_no_cluster VNone) kernel_with_folder
              (VObj 0) (VStr "./pytorch-birds")
              (Raises (ComputeTargetNotFound "ComputeTargetNotFound")) ∅)
    as (t & e & evs & _ & Ht & _ & cfg & wt & Hevs); try reflexivity.
  - apply sdk_no_cluster_answers_but_lookup.
  - intros e [= <-]. reflexivity.
  - exists t, e, evs, cfg, wt. split; [exact Ht | exact Hevs].
Defined.

(** ** The top-to-bottom run, call by call *)






